(** * sigpair-admin-js: the admin client of a Sigpair node

    A shallow embedding of [src/index.ts]: the class [SigpairAdmin] with its
    methods [createPostRequest], [createUser] and [genUserToken], and the
    module-level function [handleRequest] that performs the exchange through
    [axios.post].

    Modelling choices, each following the source:
    - strings are [string]; the template literal [`${a}/${b}`] is string
      concatenation of the converted parts;
    - the HTTP status is a natural number ([N]) printed in decimal, the user
      id and the lifetime are integers ([Z]) that the code only passes on;
    - the header object literal is a finite map from header name to value;
    - the payloads are the records the source declares ([CreateUserPayload],
      [GenUserTokenPayload]); the decoded body of a response is whatever
      JavaScript value the node sent ([JsValue]): the response types of the
      source are erased when the code runs, and nothing checks the body
      against them;
    - [axios.post] is the only interaction with the outside: a program is a
      tree whose nodes are the posts it makes ([Async]); a promise settles
      either fulfilled or rejected ([Settled]); [try]/[catch] is [try_catch];
    - the fields of [this] are threaded through the methods as a state. *)

From Stdlib Require Import ZArith NArith DecimalString.
From stdpp Require Import base strings gmap.

Local Open Scope Z_scope.

(** ** Strings *)

Module Str.

(** [String.prototype.startsWith]. *)
Fixpoint startsWith (s p : string) {struct p} : bool :=
  match p, s with
  | EmptyString, _ => true
  | String c p', String d s' => if Ascii.eqb c d then startsWith s' p' else false
  | String _ _, EmptyString => false
  end.

(** [String.prototype.includes]. *)
Fixpoint includes (s p : string) : bool :=
  startsWith s p ||
  match s with
  | EmptyString => false
  | String _ s' => includes s' p
  end.

(** What a template literal does with a number that holds a status code. *)
Definition ofN (n : N) : string := NilZero.string_of_uint (N.to_uint n).

End Str.

(** ** Values that are thrown *)

(** An [Error] object, as far as the code looks at it. *)
Record JsError := { name : string; message : string }.

(** [new Error(msg)]. *)
Definition new_Error (msg : string) : JsError :=
  {| name := "Error"; message := msg |}.

(** [Error.prototype.toString], which a template literal calls. *)
Definition Error_toString (e : JsError) : string :=
  match name e, message e with
  | EmptyString, m => m
  | n, EmptyString => n
  | n, m => n +:+ ": " +:+ m
  end.

(** The status line of a response. It is all the code reads of
    [AxiosError.response], whose body has type [any]. *)
Record StatusLine := { line_status : N; line_statusText : string }.

(** An [AxiosError]: an [Error] with an error code and, when the server
    answered, the response. Its name is [AxiosError] when axios made the
    error itself, and the name of the wrapped error when axios wraps an
    error of the transport. *)
Record AxiosError := {
  axios_name : string;
  axios_message : string;
  code : option string;
  response : option StatusLine
}.

(** What [catch (error)] can bind: an instance of [AxiosError] or any other
    [Error] object. The test [error instanceof AxiosError] is a match on the
    constructor. *)
Inductive Thrown :=
| ThrownAxiosError (e : AxiosError)
| ThrownError (e : JsError).

(** [`${error}`]. *)
Definition Thrown_toString (error : Thrown) : string :=
  match error with
  | ThrownAxiosError e =>
      Error_toString {| name := axios_name e; message := axios_message e |}
  | ThrownError e => Error_toString e
  end.

(** [`${x}`] for an optional string and an optional status: [undefined]
    prints as the word. *)
Definition template_string (x : option string) : string :=
  match x with
  | Some s => s
  | None => "undefined"
  end.

Definition template_status (x : option N) : string :=
  match x with
  | Some n => Str.ofN n
  | None => "undefined"
  end.

(** ** Values *)

(** A JavaScript value, as a decoded body can hold it. An object is the list
    of its own properties; a decoded object has each key once. *)
#[warnings="-register-all"] Inductive JsValue :=
| JsUndefined
| JsNull
| JsBoolean (b : bool)
| JsNumber (n : Z)
| JsString (s : string)
| JsArray (items : list JsValue)
| JsObject (properties : list (string * JsValue)).

(** The own property [key] of an object. *)
Fixpoint own_property (key : string) (properties : list (string * JsValue))
    : option JsValue :=
  match properties with
  | [] => None
  | (k, v) :: rest => if String.eqb k key then Some v else own_property key rest
  end.

(** [new TypeError(msg)], as the engine makes it. *)
Definition new_TypeError (msg : string) : JsError :=
  {| name := "TypeError"; message := msg |}.

(** ** Promises *)

(** A settled promise. *)
Inductive Settled (A : Type) : Type :=
| Fulfilled (a : A)
| Rejected (e : Thrown).
Arguments Fulfilled {A} a.
Arguments Rejected {A} e.

(** [AxiosResponse<R, any>]. *)
Record AxiosResponse (R : Type) := {
  status : N;
  statusText : string;
  data : R
}.
Arguments status {R} _.
Arguments statusText {R} _.
Arguments data {R} _.

(** [v.key], for a key that no built-in prototype defines, as [user_id] and
    [token] are: reading it off [null] or [undefined] throws (the message is
    that of V8), off an object gives the own property or [undefined], and
    off any other value gives [undefined]. *)
Definition get_property (v : JsValue) (key : string) : Settled JsValue :=
  match v with
  | JsUndefined =>
      Rejected (ThrownError (new_TypeError (
        "Cannot read properties of undefined (reading '" +:+ key +:+ "')")))
  | JsNull =>
      Rejected (ThrownError (new_TypeError (
        "Cannot read properties of null (reading '" +:+ key +:+ "')")))
  | JsObject properties =>
      Fulfilled (default JsUndefined (own_property key properties))
  | JsBoolean _ | JsNumber _ | JsString _ | JsArray _ => Fulfilled JsUndefined
  end.

(** ** The wire *)

(** The JSON text of a payload, as a tree. *)
#[warnings="-register-all"] Inductive Json :=
| JNumber (n : Z)
| JString (s : string)
| JObject (fields : list (string * Json)).

(** Payload types that [axios.post] can serialise. *)
Class JsonBody (P : Type) := toJson : P -> Json.

(** One request as it leaves the client. *)
Record Sent := {
  sent_url : string;
  sent_headers : gmap string string;
  sent_body : Json
}.

(** ** Asynchronous programs *)

(** A program that talks to the node through [axios.post<R>] and ends with a
    value of type [A]. *)
Inductive Async (R A : Type) : Type :=
| Ret (a : A)
| AxiosPost (P : Type) (J : JsonBody P)
    (url : string) (payload : P) (headers : gmap string string)
    (k : Settled (AxiosResponse R) -> Async R A).
Arguments Ret {R A} a.
Arguments AxiosPost {R A} P {J} url payload headers k.

Fixpoint abind {R A B} (m : Async R A) (f : A -> Async R B) : Async R B :=
  match m with
  | Ret a => f a
  | AxiosPost P url payload headers k =>
      AxiosPost P url payload headers (fun o => abind (k o) f)
  end.

(** The request a post puts on the wire. *)
Definition wire {P} `{JsonBody P}
    (url : string) (payload : P) (headers : gmap string string) : Sent :=
  {| sent_url := url; sent_headers := headers; sent_body := toJson payload |}.

(** Running a program against a node: the requests sent, in order, and the
    final value. *)
Fixpoint run {R A} (node : Sent -> Settled (AxiosResponse R)) (p : Async R A)
    : list Sent * A :=
  match p with
  | Ret a => ([], a)
  | AxiosPost P url payload headers k =>
      let req := wire url payload headers in
      let '(rest, a) := run node (k (node req)) in
      (req :: rest, a)
  end.

(** A promise of an [A]: an asynchronous program that settles. *)
Definition Promise (R A : Type) : Type := Async R (Settled A).

Module Promise.

Definition resolve {R A} (a : A) : Promise R A := Ret (Fulfilled a).

(** [throw e] inside an async function. *)
Definition throw {R A} (e : Thrown) : Promise R A := Ret (Rejected e).

(** [const x = await m; f x]. *)
Definition bind {R A B} (m : Promise R A) (f : A -> Promise R B) : Promise R B :=
  abind m (fun r =>
    match r with
    | Fulfilled a => f a
    | Rejected e => throw e
    end).

(** [try { body } catch (error) { handler error }]. *)
Definition try_catch {R A} (body : Promise R A) (handler : Thrown -> Promise R A)
    : Promise R A :=
  abind body (fun r =>
    match r with
    | Fulfilled a => resolve a
    | Rejected e => handler e
    end).

End Promise.

(** [axios.post(url, payload, { headers })]. *)
Definition axios_post {P R} `{JsonBody P}
    (url : string) (payload : P) (headers : gmap string string)
    : Promise R (AxiosResponse R) :=
  AxiosPost P url payload headers Ret.

(** ** handleRequest *)

Definition handleRequest {P R} `{JsonBody P}
    (url : string) (headers : gmap string string) (payload : P) : Promise R R :=
  Promise.try_catch
    (Promise.bind (axios_post url payload headers) (fun response =>
       if (status response =? 200)%N then
         Promise.resolve (data response)
       else
         Promise.throw (ThrownError (new_Error (
           "Failed to make request, error:" +:+ statusText response +:+
           ", code: " +:+ Str.ofN (status response))))))
    (fun error =>
       match error with
       | ThrownAxiosError e =>
           Promise.throw (ThrownError (new_Error (
             "Failed to make request, error:" +:+
             template_string (line_statusText <$> response e) +:+
             ", code: " +:+ template_status (line_status <$> response e))))
       | ThrownError _ =>
           Promise.throw (ThrownError (new_Error (
             "Failed to make request, error:" +:+ Thrown_toString error)))
       end).

(** ** The class SigpairAdmin *)

Record SigpairAdmin := { baseUrl : string; adminToken : string }.

(** [new SigpairAdmin(baseUrl, adminToken)]. *)
Definition constructor (baseUrl adminToken : string) : SigpairAdmin :=
  {| baseUrl := baseUrl; adminToken := adminToken |}.

(** An async method of the class: it starts from the object [this], may post,
    and ends with a settled promise and the object as the method left it. *)
Definition Method (R A : Type) : Type :=
  SigpairAdmin -> Async R (Settled A * SigpairAdmin).

Module Method.

Definition ret {R A} (a : A) : Method R A :=
  fun this => Ret (Fulfilled a, this).

Definition bind {R A B} (m : Method R A) (f : A -> Method R B) : Method R B :=
  fun this =>
    abind (m this) (fun '(r, this') =>
      match r with
      | Fulfilled a => f a this'
      | Rejected e => Ret (Rejected e, this')
      end).

(** [this.field]. *)
Definition get {R A} (field : SigpairAdmin -> A) : Method R A :=
  fun this => Ret (Fulfilled (field this), this).

(** [await p] for a promise made by a function outside the class, which
    has no access to [this]. *)
Definition await {R A} (p : Promise R A) : Method R A :=
  fun this => abind p (fun r => Ret (r, this)).

(** [v.key] inside a method: the value read, or the error thrown. *)
Definition property {R} (v : JsValue) (key : string) : Method R JsValue :=
  fun this => Ret (get_property v key, this).

End Method.

#[export] Instance Method_ret {R} : MRet (Method R) := @Method.ret R.
#[export] Instance Method_bind {R} : MBind (Method R) :=
  fun A B f m => Method.bind m f.

(** The payload and response shapes. The fields [name], [user_id] and
    [lifetime] of the payloads carry a prefix here, since [name] is a field
    of [Error] and [user_id] of the response; the wire names are those of
    the source, see the [JsonBody] instances. *)
Record CreateUserResponse := { user_id : Z }.
Record CreateUserPayload := { cu_name : string }.
Record GenUserTokenPayload := { gt_user_id : Z; gt_lifetime : Z }.
Record GenUserTokenResponse := { token : string }.

(** A body that has a declared response shape, as it is once decoded. The
    code asserts the shapes and never checks them. *)
Definition CreateUserResponse_value (d : CreateUserResponse) : JsValue :=
  JsObject [("user_id", JsNumber (user_id d))].

Definition GenUserTokenResponse_value (d : GenUserTokenResponse) : JsValue :=
  JsObject [("token", JsString (token d))].

(** The object literals as they are serialised: keys in the order written. *)
#[export] Instance CreateUserPayload_json : JsonBody CreateUserPayload :=
  fun p => JObject [("name", JString (cu_name p))].

#[export] Instance GenUserTokenPayload_json : JsonBody GenUserTokenPayload :=
  fun p => JObject [("user_id", JNumber (gt_user_id p));
                    ("lifetime", JNumber (gt_lifetime p))].

(** An optional number argument: left out (or [undefined]), [null], or a
    number. *)
Inductive OptionalNumber :=
| undefined
| null
| number (n : Z).

(** [x ?? d]. *)
Definition nullish_coalescing (x : OptionalNumber) (d : Z) : Z :=
  match x with
  | undefined | null => d
  | number n => n
  end.
Infix "??" := nullish_coalescing (at level 40, left associativity).

Definition createPostRequest {R} (route : string)
    : Method R (string * gmap string string) :=
  base ← Method.get baseUrl;
  tok ← Method.get adminToken;
  let url := base +:+ "/" +:+ route in
  let headers : gmap string string :=
    <[ "Authorization" := "Bearer " +:+ tok ]>
      {[ "Content-Type" := "application/json" ]} in
  mret (url, headers).

Definition createUser (name : string) : Method JsValue JsValue :=
  '(url, headers) ← createPostRequest "v1/create-user";
  let createPayload := {| cu_name := name |} in
  response ← Method.await (handleRequest url headers createPayload);
  Method.property response "user_id".

Definition genUserToken (userId : Z) (lifetime : OptionalNumber)
    : Method JsValue JsValue :=
  '(url, headers) ← createPostRequest "v1/user-token";
  let createPayload :=
    {| gt_user_id := userId; gt_lifetime := lifetime ?? 3600 |} in
  response ← Method.await (handleRequest url headers createPayload);
  Method.property response "token".

(** ** Calls, as a caller sees them *)

(** A call to one of the two public methods. *)
Inductive Call : Type :=
| CreateUser (name : string)
| GenUserToken (userId : Z) (lifetime : OptionalNumber).

Definition invoke (c : Call) : Method JsValue JsValue :=
  match c with
  | CreateUser name => createUser name
  | GenUserToken userId lifetime => genUserToken userId lifetime
  end.

(** The headers the specification asks for on every request. *)
Definition spec_headers (credential : string) : gmap string string :=
  <[ "Authorization" := "Bearer " +:+ credential ]>
    {[ "Content-Type" := "application/json" ]}.

(** The request the specification describes for a call: the base address
    and the route joined with a slash, the two headers, and the body with
    the wire names of the fields. *)
Definition spec_request (c : Call) (this : SigpairAdmin) : Sent :=
  match c with
  | CreateUser name =>
      {| sent_url := baseUrl this +:+ "/" +:+ "v1/create-user";
         sent_headers := spec_headers (adminToken this);
         sent_body := JObject [("name", JString name)] |}
  | GenUserToken userId lifetime =>
      {| sent_url := baseUrl this +:+ "/" +:+ "v1/user-token";
         sent_headers := spec_headers (adminToken this);
         sent_body :=
           JObject [("user_id", JNumber userId);
                    ("lifetime", JNumber (match lifetime with
                                          | number n => n
                                          | undefined | null => 3600
                                          end))] |}
  end.

(** The invocation of the executor that the specification describes for a
    call: the method builds the address, the headers and the payload, and
    delegates. *)
Definition delegated (c : Call) (this : SigpairAdmin) : Promise JsValue JsValue :=
  match c with
  | CreateUser name =>
      handleRequest (baseUrl this +:+ "/" +:+ "v1/create-user")
        (spec_headers (adminToken this)) {| cu_name := name |}
  | GenUserToken userId lifetime =>
      handleRequest (baseUrl this +:+ "/" +:+ "v1/user-token")
        (spec_headers (adminToken this))
        {| gt_user_id := userId; gt_lifetime := lifetime ?? 3600 |}
  end.

(** The field of the decoded body that the specification says a call
    returns. *)
Definition field (c : Call) : string :=
  match c with
  | CreateUser _ => "user_id"
  | GenUserToken _ _ => "token"
  end.

(** What a call makes of the promise of the executor: a failure is passed on
    as it is, and the field is read off a body. *)
Definition read_field (key : string) (r : Settled JsValue) : Settled JsValue :=
  match r with
  | Fulfilled body => get_property body key
  | Rejected e => Rejected e
  end.

(** A result of the type the method declares: a number for [createUser], a
    string for [genUserToken]. *)
Definition declared_result (c : Call) (v : JsValue) : Prop :=
  match c with
  | CreateUser _ => ∃ n, v = JsNumber n
  | GenUserToken _ _ => ∃ s, v = JsString s
  end.

(** The specification on the outcomes of a call, in its words: a call is
    entirely successful, with a result fully populated, or entirely failed,
    with the failure of the executor unchanged. *)
Definition spec_all_or_nothing (c : Call)
    (node : Sent -> Settled (AxiosResponse JsValue)) (this : SigpairAdmin)
    : Prop :=
  match fst (snd (run node (invoke c this))) with
  | Fulfilled v => declared_result c v
  | Rejected e => snd (run node (delegated c this)) = Rejected e
  end.

(** The specification on the errors of a call, in its words: an [Error]
    whose message begins with the prefix. *)
Definition spec_prefixed (e : Thrown) : Prop :=
  ∃ msg,
    e = ThrownError (new_Error msg) ∧
    Str.startsWith msg "Failed to make request, error:" = true.

(** The status line of the response an exchange obtained, if it obtained
    one: [axios.post] either resolves with the response or rejects with an
    [AxiosError] that carries it. *)
Definition received {R} (o : Settled (AxiosResponse R)) : option StatusLine :=
  match o with
  | Fulfilled r =>
      Some {| line_status := status r; line_statusText := statusText r |}
  | Rejected (ThrownAxiosError e) => response e
  | Rejected (ThrownError _) => None
  end.

(** A call together with the node that answers it. *)
Inductive Exchange : Type :=
| exchange (c : Call) (node : Sent -> Settled (AxiosResponse JsValue)).

(** A caller making calls one after the other on the same object: the
    requests sent, in order, and the object afterwards. *)
Fixpoint session (calls : list Exchange) (this : SigpairAdmin)
    : list Sent * SigpairAdmin :=
  match calls with
  | [] => ([], this)
  | exchange c node :: rest =>
      let '(sent, (_, this')) := run node (invoke c this) in
      let '(sent', this'') := session rest this' in
      (sent ++ sent', this'')
  end.

(** ** Sample values *)

(** The client that [main] builds. *)
Definition main_client : SigpairAdmin :=
  constructor "http://localhost:8080"
    "1ec3804afc23258f767b9d38825dc7ab0a2ea44ef4adf3254e4d7c6059c3b55a".

(** How axios reports a refused connection: an [AxiosError] that wraps the
    error of the socket, with its name, message and code, and no
    response. *)
Definition connection_refused : AxiosError :=
  {| axios_name := "Error";
     axios_message := "connect ECONNREFUSED 127.0.0.1:8080";
     code := Some "ECONNREFUSED";
     response := None |}.

(** How axios reports a 404 under its default [validateStatus]. *)
Definition not_found : AxiosError :=
  {| axios_name := "AxiosError";
     axios_message := "Request failed with status code 404";
     code := Some "ERR_BAD_REQUEST";
     response := Some {| line_status := 404; line_statusText := "Not Found" |} |}.

(** A node that always ends the exchange the same way. *)
Definition always {R} (o : Settled (AxiosResponse R))
    : Sent → Settled (AxiosResponse R) :=
  fun _ => o.

Definition ok {R} (body : R) : Settled (AxiosResponse R) :=
  Fulfilled {| status := 200; statusText := "OK"; data := body |}.

Definition created {R} (body : R) : Settled (AxiosResponse R) :=
  Fulfilled {| status := 201; statusText := "Created"; data := body |}.

(** Bodies of the declared shapes. *)
Definition user_body (n : Z) : JsValue :=
  CreateUserResponse_value {| user_id := n |}.

Definition token_body (s : string) : JsValue :=
  GenUserTokenResponse_value {| token := s |}.

(** ** main *)

(** The route of a call. *)
Definition route (c : Call) : string :=
  match c with
  | CreateUser _ => "v1/create-user"
  | GenUserToken _ _ => "v1/user-token"
  end.

(** A node, by how it answers the posts to each of the two routes. *)
Record Node := {
  create_user : Sent -> Settled (AxiosResponse JsValue);
  user_token : Sent -> Settled (AxiosResponse JsValue)
}.

(** What a run of the module leaves behind: the requests sent and the values
    given to [console.log], both in order. *)
Record World := { requests : list Sent; console : list JsValue }.

Definition empty_world : World := {| requests := []; console := [] |}.

(** A top-level async function: it runs against a node, sends and logs, and
    settles. *)
Definition Script (A : Type) : Type := Node -> World -> Settled A * World.

Module Script.

Definition ret {A} (a : A) : Script A := fun _ w => (Fulfilled a, w).

(** Sequencing; a rejection skips the rest of the function. *)
Definition bind {A B} (m : Script A) (f : A -> Script B) : Script B :=
  fun node w =>
    match m node w with
    | (Fulfilled a, w') => f a node w'
    | (Rejected e, w') => (Rejected e, w')
    end.

(** [await] on a method call: the call runs against the endpoint of its
    route; the object comes back with the value. *)
Definition await {R A}
    (endpoint : Node -> Sent -> Settled (AxiosResponse R))
    (call : Async R (Settled A * SigpairAdmin)) : Script (A * SigpairAdmin) :=
  fun node w =>
    let '(sent, (r, this)) := run (endpoint node) call in
    let w' := {| requests := requests w ++ sent; console := console w |} in
    match r with
    | Fulfilled a => (Fulfilled (a, this), w')
    | Rejected e => (Rejected e, w')
    end.

(** [console.log(x)]. *)
Definition console_log (x : JsValue) : Script unit :=
  fun _ w =>
    (Fulfilled tt, {| requests := requests w; console := console w ++ [x] |}).

End Script.

#[export] Instance Script_ret : MRet Script := @Script.ret.
#[export] Instance Script_bind : MBind Script :=
  fun A B f m => Script.bind m f.

Definition main : Script unit :=
  let client :=
    constructor "http://localhost:8080"
      "1ec3804afc23258f767b9d38825dc7ab0a2ea44ef4adf3254e4d7c6059c3b55a" in
  '(userId, client) ← Script.await create_user (createUser "John Doe" client);
  '(token, client) ←
    Script.await user_token (genUserToken 10000 (number 3600) client);
  _ ← Script.console_log userId;
  Script.console_log token.

(** How axios reports a request that ran into its timeout: again an
    [AxiosError] without a response. *)
Definition timed_out : AxiosError :=
  {| axios_name := "AxiosError";
     axios_message := "timeout of 1000ms exceeded";
     code := Some "ECONNABORTED";
     response := None |}.

(** The request that a call of a [session] is expected to send from the
    object [this]. *)
Definition exchange_request (this : SigpairAdmin) (x : Exchange) : Sent :=
  match x with
  | exchange c _ => spec_request c this
  end.

(** A node for the examples: it creates user 7 and issues the token
    [abc]. *)
Definition sample_node : Node :=
  {| create_user := always (ok (user_body 7));
     user_token := always (ok (token_body "abc")) |}.

(** * Properties *)

(** ** Strings *)

Section StringFacts.

Implicit Types s p a b : string.

Lemma append_nil b : "" +:+ b = b.
Proof. reflexivity. Qed.

Lemma append_cons c s b : String c s +:+ b = String c (s +:+ b).
Proof. reflexivity. Qed.

Lemma startsWith_refl p : Str.startsWith p p = true.
Proof.
  induction p as [|c p IH]; [reflexivity|].
  cbn. by rewrite Ascii.eqb_refl.
Qed.

Lemma startsWith_app s p b :
  Str.startsWith s p = true → Str.startsWith (s +:+ b) p = true.
Proof.
  revert s. induction p as [|c p IH]; intros s Hs; [reflexivity|].
  destruct s as [|d s]; [discriminate|].
  rewrite append_cons. cbn in *.
  destruct (Ascii.eqb c d); [by apply IH|discriminate].
Qed.

Lemma startsWith_prefix p b : Str.startsWith (p +:+ b) p = true.
Proof. apply startsWith_app, startsWith_refl. Qed.

Lemma includes_startsWith s p :
  Str.startsWith s p = true → Str.includes s p = true.
Proof. intros Hs. destruct s; cbn in *; by rewrite Hs. Qed.

Lemma includes_app_l a s p :
  Str.includes s p = true → Str.includes (a +:+ s) p = true.
Proof.
  intros Hs. induction a as [|c a IH]; [done|].
  rewrite append_cons. cbn. rewrite IH. apply orb_true_r.
Qed.

Lemma includes_app_r s b p :
  Str.includes s p = true → Str.includes (s +:+ b) p = true.
Proof.
  induction s as [|c s IH].
  - cbn. rewrite orb_false_r. intros Hp.
    apply includes_startsWith. by destruct p.
  - rewrite append_cons. cbn. intros [Hp|Hp]%orb_true_iff.
    + apply (startsWith_app (String c s) p b) in Hp.
      rewrite append_cons in Hp. by rewrite Hp.
    + rewrite (IH Hp). apply orb_true_r.
Qed.

Lemma includes_refl p : Str.includes p p = true.
Proof. apply includes_startsWith, startsWith_refl. Qed.

(** [includes] finds every part of a concatenation. *)
Lemma includes_middle a p b : Str.includes (a +:+ p +:+ b) p = true.
Proof. apply includes_app_l, includes_app_r, includes_refl. Qed.

Lemma includes_end a p : Str.includes (a +:+ p) p = true.
Proof. apply includes_app_l, includes_refl. Qed.

(** Conversely, what [includes] finds is a part of the string. *)
Lemma startsWith_inv s p :
  Str.startsWith s p = true → ∃ b, s = p +:+ b.
Proof.
  revert s. induction p as [|c p IH]; intros s Hs; [by exists s|].
  destruct s as [|d s]; [discriminate|]. cbn in Hs.
  destruct (Ascii.eqb_spec c d) as [->|]; [|discriminate].
  destruct (IH _ Hs) as [b ->]. by exists b.
Qed.

Lemma includes_inv s p :
  Str.includes s p = true → ∃ a b, s = a +:+ p +:+ b.
Proof.
  induction s as [|c s IH]; cbn.
  - rewrite orb_false_r. intros [b Hb]%startsWith_inv. by exists "", b.
  - intros [Hp|Hp]%orb_true_iff.
    + apply startsWith_inv in Hp as [b Hb]. by exists "", b.
    + destruct (IH Hp) as (a & b & ->). by exists (String c a), b.
Qed.

End StringFacts.

(** ** The request executor *)

Section Executor.

Context {P R : Type} `{JsonBody P}.
Variables (url : string) (headers : gmap string string) (payload : P).
Variable node : Sent → Settled (AxiosResponse R).

Let req : Sent := wire url payload headers.

(** One post per invocation, whatever the node answers. *)
Lemma handleRequest_sent :
  fst (run node (handleRequest url headers payload)) = [req].
Proof.
  unfold handleRequest, Promise.try_catch, Promise.bind, axios_post.
  cbn [run abind]. fold req.
  destruct (node req) as [r|[e|e]]; cbn [run abind]; [|done..].
  by destruct (status r =? 200)%N.
Qed.

Lemma handleRequest_200 r :
  node req = Fulfilled r → status r = 200%N →
  snd (run node (handleRequest url headers payload)) = Fulfilled (data r).
Proof.
  intros Hr Hs.
  unfold handleRequest, Promise.try_catch, Promise.bind, axios_post.
  cbn [run abind]. fold req. rewrite Hr. cbn [run abind].
  by rewrite Hs.
Qed.

(** The error thrown in the [else] branch is caught by the [catch] around
    it, and wrapped again. *)
Lemma handleRequest_not_200 r :
  node req = Fulfilled r → status r ≠ 200%N →
  snd (run node (handleRequest url headers payload)) =
    Rejected (ThrownError (new_Error (
      "Failed to make request, error:" +:+ "Error: " +:+
      "Failed to make request, error:" +:+ statusText r +:+
      ", code: " +:+ Str.ofN (status r)))).
Proof.
  intros Hr Hs.
  unfold handleRequest, Promise.try_catch, Promise.bind, axios_post.
  cbn [run abind]. fold req. rewrite Hr. cbn [run abind].
  apply N.eqb_neq in Hs. rewrite Hs. reflexivity.
Qed.

Lemma handleRequest_AxiosError e :
  node req = Rejected (ThrownAxiosError e) →
  snd (run node (handleRequest url headers payload)) =
    Rejected (ThrownError (new_Error (
      "Failed to make request, error:" +:+
      template_string (line_statusText <$> response e) +:+
      ", code: " +:+ template_status (line_status <$> response e)))).
Proof.
  intros Hr.
  unfold handleRequest, Promise.try_catch, Promise.bind, axios_post.
  cbn [run abind]. fold req. by rewrite Hr.
Qed.

Lemma handleRequest_other_error e :
  node req = Rejected (ThrownError e) →
  snd (run node (handleRequest url headers payload)) =
    Rejected (ThrownError (new_Error (
      "Failed to make request, error:" +:+ Error_toString e))).
Proof.
  intros Hr.
  unfold handleRequest, Promise.try_catch, Promise.bind, axios_post.
  cbn [run abind]. fold req. by rewrite Hr.
Qed.

End Executor.

(** ** Running composed programs *)

Lemma run_abind {R A B} (node : Sent → Settled (AxiosResponse R))
    (m : Async R A) (f : A → Async R B) :
  run node (abind m f) =
    (fst (run node m) ++ fst (run node (f (snd (run node m)))),
     snd (run node (f (snd (run node m))))).
Proof.
  induction m as [a|P J url payload headers k IH]; cbn [run abind].
  - cbn [fst snd app]. by destruct (run node (f a)).
  - rewrite IH. by destruct (run node (k _)).
Qed.

Lemma run_await {R A} (node : Sent → Settled (AxiosResponse R))
    (p : Promise R A) (this : SigpairAdmin) :
  run node (Method.await p this) =
    (fst (run node p), (snd (run node p), this)).
Proof.
  unfold Method.await. rewrite run_abind. cbn [run fst snd].
  by rewrite app_nil_r.
Qed.

(** ** The domain methods in terms of the executor *)

Lemma createUser_run node this name :
  run node (createUser name this) =
    let p := handleRequest (baseUrl this +:+ "/" +:+ "v1/create-user")
               (spec_headers (adminToken this)) {| cu_name := name |} in
    (fst (run node p), (read_field "user_id" (snd (run node p)), this)).
Proof.
  unfold createUser, createPostRequest, mbind, Method_bind, Method.bind,
    mret, Method_ret, Method.ret, Method.get, Method.property.
  cbn [abind]. rewrite run_abind, run_await. cbn [fst snd].
  fold (spec_headers (adminToken this)).
  destruct (snd (run node _)); cbn [run fst snd read_field];
    by rewrite app_nil_r.
Qed.

Lemma genUserToken_run node this userId lifetime :
  run node (genUserToken userId lifetime this) =
    let p := handleRequest (baseUrl this +:+ "/" +:+ "v1/user-token")
               (spec_headers (adminToken this))
               {| gt_user_id := userId; gt_lifetime := lifetime ?? 3600 |} in
    (fst (run node p), (read_field "token" (snd (run node p)), this)).
Proof.
  unfold genUserToken, createPostRequest, mbind, Method_bind, Method.bind,
    mret, Method_ret, Method.ret, Method.get, Method.property.
  cbn [abind]. rewrite run_abind, run_await. cbn [fst snd].
  fold (spec_headers (adminToken this)).
  destruct (snd (run node _)); cbn [run fst snd read_field];
    by rewrite app_nil_r.
Qed.

(** ** Calls *)

Section Calls.

Variable c : Call.
Variable node : Sent → Settled (AxiosResponse JsValue).
Variable this : SigpairAdmin.

Lemma invoke_run :
  run node (invoke c this) =
    (fst (run node (delegated c this)),
     (read_field (field c) (snd (run node (delegated c this))), this)).
Proof.
  destruct c; [apply createUser_run|apply genUserToken_run].
Qed.

(** The request on the wire is the one the specification describes. *)
Lemma delegated_sent :
  fst (run node (delegated c this)) = [spec_request c this].
Proof.
  destruct c as [name|userId lifetime]; cbn [delegated];
    rewrite handleRequest_sent; [done|].
  by destruct lifetime.
Qed.

Lemma invoke_sent : fst (run node (invoke c this)) = [spec_request c this].
Proof. rewrite invoke_run. apply delegated_sent. Qed.

Lemma invoke_this : snd (snd (run node (invoke c this))) = this.
Proof. by rewrite invoke_run. Qed.

Lemma invoke_settled :
  fst (snd (run node (invoke c this))) =
    read_field (field c) (snd (run node (delegated c this))).
Proof. by rewrite invoke_run. Qed.

(** The four ways an exchange can end. On a 200 the call is what reading
    the field off the body is. *)

Lemma invoke_200 r :
  node (spec_request c this) = Fulfilled r → status r = 200%N →
  fst (snd (run node (invoke c this))) = get_property (data r) (field c).
Proof.
  intros Hr Hs. rewrite invoke_settled.
  destruct c as [name|userId lifetime]; cbn [delegated];
    erewrite handleRequest_200; try done; by destruct lifetime.
Qed.

Lemma invoke_not_200 r :
  node (spec_request c this) = Fulfilled r → status r ≠ 200%N →
  fst (snd (run node (invoke c this))) =
    Rejected (ThrownError (new_Error (
      "Failed to make request, error:" +:+ "Error: " +:+
      "Failed to make request, error:" +:+ statusText r +:+
      ", code: " +:+ Str.ofN (status r)))).
Proof.
  intros Hr Hs. rewrite invoke_settled.
  destruct c as [name|userId lifetime]; cbn [delegated];
    erewrite handleRequest_not_200; try done; by destruct lifetime.
Qed.

Lemma invoke_AxiosError e :
  node (spec_request c this) = Rejected (ThrownAxiosError e) →
  fst (snd (run node (invoke c this))) =
    Rejected (ThrownError (new_Error (
      "Failed to make request, error:" +:+
      template_string (line_statusText <$> response e) +:+
      ", code: " +:+ template_status (line_status <$> response e)))).
Proof.
  intros Hr. rewrite invoke_settled.
  destruct c as [name|userId lifetime]; cbn [delegated];
    erewrite handleRequest_AxiosError; try done; by destruct lifetime.
Qed.

Lemma invoke_other_error e :
  node (spec_request c this) = Rejected (ThrownError e) →
  fst (snd (run node (invoke c this))) =
    Rejected (ThrownError (new_Error (
      "Failed to make request, error:" +:+ Error_toString e))).
Proof.
  intros Hr. rewrite invoke_settled.
  destruct c as [name|userId lifetime]; cbn [delegated];
    erewrite handleRequest_other_error; try done; by destruct lifetime.
Qed.

End Calls.

(** ** The examples of the specification *)

Example createUser_John_Doe :
  run (always (ok (user_body 10000))) (createUser "John Doe" main_client) =
    ([spec_request (CreateUser "John Doe") main_client],
     (Fulfilled (JsNumber 10000), main_client)).
Proof. reflexivity. Qed.

Example genUserToken_default_lifetime :
  let (sent, result) :=
    run (always (ok (token_body "abc"))) (genUserToken 10000 undefined main_client) in
  sent_body <$> sent =
    [JObject [("user_id", JNumber 10000); ("lifetime", JNumber 3600)]] ∧
  sent_url <$> sent = ["http://localhost:8080/v1/user-token"] ∧
  result = (Fulfilled (JsString "abc"), main_client).
Proof. repeat split. Qed.

(** A 200 whose body is not of the declared shape. *)
Example createUser_empty_object :
  fst (snd (run (always (ok (JsObject []))) (createUser "John Doe" main_client))) =
    Fulfilled JsUndefined.
Proof. reflexivity. Qed.

Example createUser_null_body :
  fst (snd (run (always (ok JsNull)) (createUser "John Doe" main_client))) =
    Rejected (ThrownError (new_TypeError
      "Cannot read properties of null (reading 'user_id')")).
Proof. reflexivity. Qed.

Example status_in_decimal :
  Str.ofN 200 = "200" ∧ Str.ofN 404 = "404" ∧ Str.ofN 0 = "0".
Proof. repeat split. Qed.

Example not_found_message :
  fst (snd (run (always (Rejected (ThrownAxiosError not_found)))
              (createUser "John Doe" main_client))) =
    Rejected (ThrownError (new_Error
      "Failed to make request, error:Not Found, code: 404")).
Proof. reflexivity. Qed.

(** ** Messages *)

(** Finds a part of a concatenation. *)
Ltac find_part :=
  repeat first
    [ apply includes_refl
    | apply includes_app_r, includes_refl
    | apply includes_app_l ].

Lemma status_message_parts (text : string) (st : N) :
  let msg := "Failed to make request, error:" +:+ text +:+
             ", code: " +:+ Str.ofN st in
  Str.includes msg (Str.ofN st) = true ∧ Str.includes msg text = true.
Proof. split; find_part. Qed.

(** On the branch for errors that are not axios errors, the message embeds
    the string form of what was caught. *)
Lemma other_error_message_has_cause (c : Call) node this e :
  node (spec_request c this) = Rejected (ThrownError e) →
  ∃ msg,
    fst (snd (run node (invoke c this))) = Rejected (ThrownError (new_Error msg)) ∧
    Str.includes msg (Thrown_toString (ThrownError e)) = true.
Proof.
  intros Hn. eexists. split; [by apply invoke_other_error|].
  cbn [Thrown_toString]. find_part.
Qed.

(** ** Transport failures *)

(** On the branch for axios errors, an error without a response leaves
    nothing of itself in the message. *)
Lemma no_response_message (c : Call) node this e :
  node (spec_request c this) = Rejected (ThrownAxiosError e) →
  response e = None →
  fst (snd (run node (invoke c this))) =
    Rejected (ThrownError (new_Error
      "Failed to make request, error:undefined, code: undefined")).
Proof.
  intros Hn He. rewrite (invoke_AxiosError c node this e Hn), He.
  reflexivity.
Qed.

(** C1, at a refused connection. axios rejects with an [AxiosError] that has
    no response; the [catch] takes its first branch and prints the absent
    status text and status, so the message is the same for every transport
    failure and holds nothing of the underlying error: neither its message,
    nor its code, nor its string form. *)
Theorem refused_connection_message :
  ∀ (c : Call) (this : SigpairAdmin),
    let msg := "Failed to make request, error:undefined, code: undefined" in
    run (always (Rejected (ThrownAxiosError connection_refused))) (invoke c this) =
      ([spec_request c this], (Rejected (ThrownError (new_Error msg)), this)) ∧
    Str.includes msg (axios_message connection_refused) = false ∧
    Str.includes msg "ECONNREFUSED" = false ∧
    Str.includes msg
      (Thrown_toString (ThrownAxiosError connection_refused)) = false.
Proof.
  intros c this msg. split; [|by vm_compute].
  set (node := always _).
  rewrite (surjective_pairing (run node (invoke c this))).
  rewrite (surjective_pairing (snd (run node (invoke c this)))).
  rewrite invoke_sent, invoke_this.
  by rewrite (invoke_AxiosError c node this connection_refused).
Qed.

(** ** Responses with a status other than 200 *)

(** C2. When the exchange obtains a response whose status is not 200, the
    call is rejected, so no value is returned, and the message of the error
    contains the status code in decimal and the status text. *)
Theorem non_200_response_fails (c : Call)
    (node : Sent → Settled (AxiosResponse JsValue)) (this : SigpairAdmin)
    (line : StatusLine) :
  received (node (spec_request c this)) = Some line →
  line_status line ≠ 200%N →
  ∃ msg,
    fst (snd (run node (invoke c this))) = Rejected (ThrownError (new_Error msg)) ∧
    Str.includes msg (Str.ofN (line_status line)) = true ∧
    Str.includes msg (line_statusText line) = true.
Proof.
  intros Hline Hstatus.
  destruct (node (spec_request c this)) as [r|[e|e]] eqn:Hnode;
    cbn [received] in Hline; [| |discriminate].
  - injection Hline as <-. cbn [line_status line_statusText] in *.
    eexists. split; [by apply invoke_not_200|]. split; find_part.
  - eexists. split; [by apply invoke_AxiosError|].
    rewrite Hline. apply status_message_parts.
Qed.

Lemma non_200_response_fails_witness :
  let c := CreateUser "John Doe" in
  let node := always (Rejected (ThrownAxiosError not_found)) in
  received (node (spec_request c main_client)) =
    Some {| line_status := 404; line_statusText := "Not Found" |} ∧
  ∃ msg,
    fst (snd (run node (invoke c main_client))) =
      Rejected (ThrownError (new_Error msg)) ∧
    Str.includes msg "404" = true ∧
    Str.includes msg "Not Found" = true.
Proof.
  split; [reflexivity|].
  apply (non_200_response_fails (CreateUser "John Doe")
           (always (Rejected (ThrownAxiosError not_found))) main_client
           {| line_status := 404; line_statusText := "Not Found" |});
    [reflexivity|discriminate].
Defined.

(** ** Failures pass through the domain methods *)

(** C3, as the specification has it, fails on a 200 answer whose body is
    not of the declared shape. With the body [null] the executor is
    fulfilled and the call is rejected all the same, with an error of the
    method; with the body [{}] the call is fulfilled with [undefined]. *)
Lemma unchecked_body_breaks_all_or_nothing :
  ¬ spec_all_or_nothing (CreateUser "John Doe") (always (ok JsNull)) main_client ∧
  ¬ spec_all_or_nothing (CreateUser "John Doe") (always (ok (JsObject [])))
      main_client.
Proof.
  split.
  - unfold spec_all_or_nothing.
    change (fst (snd (run (always (ok JsNull))
                        (invoke (CreateUser "John Doe") main_client))))
      with (@Rejected JsValue (ThrownError (new_TypeError
              "Cannot read properties of null (reading 'user_id')"))).
    change (snd (run (always (ok JsNull))
                   (delegated (CreateUser "John Doe") main_client)))
      with (Fulfilled JsNull).
    discriminate.
  - unfold spec_all_or_nothing.
    change (fst (snd (run (always (ok (JsObject [])))
                        (invoke (CreateUser "John Doe") main_client))))
      with (Fulfilled JsUndefined).
    intros [n Hn]. discriminate.
Qed.

(** C3, amended. A domain method is its invocation of the executor followed
    by the read of one field: the requests are those of the executor, the
    object is left as it was, a rejection of the executor is the rejection
    of the call with the same error, and on a body of the executor the call
    is what reading the field gives, unchecked: the value of the field,
    [undefined] when the body has no such field, and a [TypeError] of the
    method when the body is [null] or [undefined]. *)
Theorem domain_methods_pass_failures_and_read_the_field :
  ∀ (c : Call) (node : Sent → Settled (AxiosResponse JsValue))
    (this : SigpairAdmin),
    run node (invoke c this) =
      (fst (run node (delegated c this)),
       (match snd (run node (delegated c this)) with
        | Rejected e => Rejected e
        | Fulfilled (JsObject properties) =>
            match own_property (field c) properties with
            | Some v => Fulfilled v
            | None => Fulfilled JsUndefined
            end
        | Fulfilled JsNull =>
            Rejected (ThrownError (new_TypeError (
              "Cannot read properties of null (reading '" +:+ field c +:+ "')")))
        | Fulfilled JsUndefined =>
            Rejected (ThrownError (new_TypeError (
              "Cannot read properties of undefined (reading '" +:+ field c +:+
              "')")))
        | Fulfilled _ => Fulfilled JsUndefined
        end,
        this)).
Proof.
  intros c node this. rewrite invoke_run. do 2 f_equal.
  destruct (snd (run node (delegated c this))) as [[| | | | | |properties]|e];
    cbn [read_field get_property]; try done.
  by destruct (own_property (field c) properties).
Qed.

(** ** createUser *)

(** C4. [createUser name] sends one request, to the base address joined
    with the route by a slash and with the name as the only field of the
    body; when the node answers 200 the call returns the [user_id] of the
    decoded body. *)
Theorem createUser_posts_once (node : Sent → Settled (AxiosResponse JsValue))
    (this : SigpairAdmin) (name : string) :
  let req :=
    {| sent_url := baseUrl this +:+ "/" +:+ "v1/create-user";
       sent_headers := spec_headers (adminToken this);
       sent_body := JObject [("name", JString name)] |} in
  fst (run node (createUser name this)) = [req] ∧
  ∀ r properties v,
    node req = Fulfilled r → status r = 200%N →
    data r = JsObject properties →
    own_property "user_id" properties = Some v →
    fst (snd (run node (createUser name this))) = Fulfilled v.
Proof.
  intros req. split.
  - apply (invoke_sent (CreateUser name)).
  - intros r properties v Hr Hs Hbody Hfield.
    pose proof (invoke_200 (CreateUser name) node this r Hr Hs) as Hcall.
    cbn [invoke field] in Hcall. rewrite Hcall, Hbody.
    cbn [get_property]. by rewrite Hfield.
Qed.

Lemma createUser_posts_once_witness :
  let node := always (ok (user_body 10000)) in
  fst (run node (createUser "John Doe" main_client)) =
    [ {| sent_url := "http://localhost:8080/v1/create-user";
         sent_headers := spec_headers (adminToken main_client);
         sent_body := JObject [("name", JString "John Doe")] |} ] ∧
  fst (snd (run node (createUser "John Doe" main_client))) =
    Fulfilled (JsNumber 10000).
Proof.
  pose proof (createUser_posts_once
                (always (ok (user_body 10000))) main_client "John Doe")
    as [Hsent Hok].
  split; [exact Hsent|].
  apply (Hok {| status := 200; statusText := "OK"; data := user_body 10000 |}
             [("user_id", JsNumber 10000)] (JsNumber 10000)); reflexivity.
Defined.

(** ** genUserToken *)

(** C5. With a lifetime supplied, [genUserToken] sends one request, to the
    base address joined with the route by a slash, whose body holds the
    user id and the lifetime under their wire names; when the node answers
    200 the call returns the [token] of the decoded body. *)
Theorem genUserToken_posts_once
    (node : Sent → Settled (AxiosResponse JsValue))
    (this : SigpairAdmin) (userId lifetimeSeconds : Z) :
  let req :=
    {| sent_url := baseUrl this +:+ "/" +:+ "v1/user-token";
       sent_headers := spec_headers (adminToken this);
       sent_body := JObject [("user_id", JNumber userId);
                             ("lifetime", JNumber lifetimeSeconds)] |} in
  fst (run node (genUserToken userId (number lifetimeSeconds) this)) = [req] ∧
  ∀ r properties v,
    node req = Fulfilled r → status r = 200%N →
    data r = JsObject properties →
    own_property "token" properties = Some v →
    fst (snd (run node (genUserToken userId (number lifetimeSeconds) this))) =
      Fulfilled v.
Proof.
  intros req. split.
  - apply (invoke_sent (GenUserToken userId (number lifetimeSeconds))).
  - intros r properties v Hr Hs Hbody Hfield.
    pose proof (invoke_200 (GenUserToken userId (number lifetimeSeconds))
                  node this r Hr Hs) as Hcall.
    cbn [invoke field] in Hcall. rewrite Hcall, Hbody.
    cbn [get_property]. by rewrite Hfield.
Qed.

Lemma genUserToken_posts_once_witness :
  let node := always (ok (token_body "abc")) in
  fst (run node (genUserToken 10000 (number 3600) main_client)) =
    [ {| sent_url := "http://localhost:8080/v1/user-token";
         sent_headers := spec_headers (adminToken main_client);
         sent_body := JObject [("user_id", JNumber 10000);
                               ("lifetime", JNumber 3600)] |} ] ∧
  fst (snd (run node (genUserToken 10000 (number 3600) main_client))) =
    Fulfilled (JsString "abc").
Proof.
  pose proof (genUserToken_posts_once
                (always (ok (token_body "abc"))) main_client 10000 3600)
    as [Hsent Hok].
  split; [exact Hsent|].
  apply (Hok {| status := 200; statusText := "OK"; data := token_body "abc" |}
             [("token", JsString "abc")] (JsString "abc")); reflexivity.
Defined.

Lemma genUserToken_sent node this userId lifetime :
  fst (run node (genUserToken userId lifetime this)) =
    [spec_request (GenUserToken userId lifetime) this].
Proof. apply (invoke_sent (GenUserToken userId lifetime)). Qed.

(** C6. With the lifetime left out, the body of the one request sent has a
    [lifetime] field, and it is 3600. *)
Theorem omitted_lifetime_sends_3600 :
  ∀ (node : Sent → Settled (AxiosResponse JsValue))
    (this : SigpairAdmin) (userId : Z),
    sent_body <$> fst (run node (genUserToken userId undefined this)) =
      [JObject [("user_id", JNumber userId); ("lifetime", JNumber 3600)]].
Proof.
  intros node this userId. by rewrite genUserToken_sent.
Qed.

(** C10. The default replaces [undefined] and [null] and nothing else: a
    number, zero included, is the [lifetime] of the body as it was passed. *)
Theorem default_lifetime_only_for_nullish :
  ∀ (node : Sent → Settled (AxiosResponse JsValue))
    (this : SigpairAdmin) (userId : Z),
    let body lifetime :=
      sent_body <$> fst (run node (genUserToken userId lifetime this)) in
    let expected n :=
      [JObject [("user_id", JNumber userId); ("lifetime", JNumber n)]] in
    body undefined = expected 3600 ∧
    body null = expected 3600 ∧
    body (number 0) = expected 0 ∧
    ∀ n, body (number n) = expected n.
Proof.
  intros node this userId body expected. unfold body, expected.
  repeat split; intros; by rewrite genUserToken_sent.
Qed.

(** ** The object and its headers *)

Lemma spec_headers_content_type credential :
  spec_headers credential !! "Content-Type" = Some "application/json".
Proof.
  unfold spec_headers. rewrite lookup_insert_ne by done.
  apply lookup_singleton_eq.
Qed.

Lemma spec_headers_authorization credential :
  spec_headers credential !! "Authorization" = Some ("Bearer " +:+ credential).
Proof. apply lookup_insert_eq. Qed.

Lemma spec_request_headers (c : Call) this :
  sent_headers (spec_request c this) = spec_headers (adminToken this).
Proof. by destruct c. Qed.

(** Calls made one after the other on one object leave it as it was, and
    every request they send carries the headers built from its token. *)
Lemma session_stable calls this :
  snd (session calls this) = this ∧
  Forall (λ req, sent_headers req = spec_headers (adminToken this))
         (fst (session calls this)).
Proof.
  induction calls as [|[c node] calls [IHthis IHsent]]; [by split|].
  cbn [session].
  pose proof (invoke_sent c node this) as Hsent.
  pose proof (invoke_this c node this) as Hthis.
  destruct (run node (invoke c this)) as [sent [r this']].
  cbn [fst snd] in Hsent, Hthis. subst sent this'.
  destruct (session calls this) as [sent' this''].
  cbn [fst snd] in *. split; [done|].
  apply Forall_cons. split; [apply spec_request_headers|done].
Qed.

(** C7. The constructor stores the two strings; no sequence of calls on the
    object changes either of them; and every request of every call carries
    the same two headers, [Content-Type: application/json] and
    [Authorization: Bearer] followed by the token given to the constructor. *)
Theorem client_is_immutable_and_headers_fixed :
  ∀ (baseAddress credential : string) (calls : list Exchange),
    let client := constructor baseAddress credential in
    baseUrl client = baseAddress ∧
    adminToken client = credential ∧
    snd (session calls client) = client ∧
    Forall (λ req,
              sent_headers req = spec_headers credential ∧
              sent_headers req !! "Content-Type" = Some "application/json" ∧
              sent_headers req !! "Authorization" =
                Some ("Bearer " +:+ credential))
           (fst (session calls client)).
Proof.
  intros baseAddress credential calls client.
  destruct (session_stable calls client) as [Hthis Hsent].
  split; [reflexivity|]. split; [reflexivity|]. split; [exact Hthis|].
  eapply Forall_impl; [exact Hsent|].
  intros req Hreq. rewrite Hreq. cbn [adminToken client constructor].
  split; [reflexivity|]. split.
  - apply spec_headers_content_type.
  - apply spec_headers_authorization.
Qed.

(** ** The shape of every failure *)

(** A rejected call carries an [Error] of the executor, or the [TypeError]
    of reading the field off a 200 answer with no body to read it from. *)
Lemma invoke_rejected (c : Call)
    (node : Sent → Settled (AxiosResponse JsValue)) (this : SigpairAdmin)
    (e : Thrown) :
  fst (snd (run node (invoke c this))) = Rejected e →
  spec_prefixed e ∨
  ∃ r, node (spec_request c this) = Fulfilled r ∧ status r = 200%N ∧
       (data r = JsNull ∨ data r = JsUndefined) ∧
       ∃ msg, e = ThrownError (new_TypeError msg).
Proof.
  intros He.
  destruct (node (spec_request c this)) as [r|[ae|je]] eqn:Hnode.
  - destruct (decide (status r = 200%N)) as [Hs|Hs].
    + right. exists r. rewrite (invoke_200 c node this r) in He by done.
      destruct (data r) eqn:Hdata; cbn [get_property] in He;
        try discriminate; injection He as <-;
        (split; [done|]; split; [done|]; split; [by auto|by eexists]).
    + left. rewrite (invoke_not_200 c node this r) in He by done.
      injection He as <-. eexists. split; [done|apply startsWith_prefix].
  - left. rewrite (invoke_AxiosError c node this ae) in He by done.
    injection He as <-. eexists. split; [done|apply startsWith_prefix].
  - left. rewrite (invoke_other_error c node this je) in He by done.
    injection He as <-. eexists. split; [done|apply startsWith_prefix].
Qed.

(** C8, as the specification has it, fails on a 200 answer with the body
    [null]: the method reads the field outside the [try] of the executor,
    and the [TypeError] of that read reaches the caller as it is, with no
    prefix. *)
Lemma null_body_error_is_not_prefixed :
  let e := ThrownError (new_TypeError
             "Cannot read properties of null (reading 'user_id')") in
  fst (snd (run (always (ok JsNull))
              (invoke (CreateUser "John Doe") main_client))) = Rejected e ∧
  ¬ ∃ msg,
      e = ThrownError (new_Error msg) ∧
      Str.startsWith msg "Failed to make request, error:" = true.
Proof.
  split; [reflexivity|].
  intros (msg & Heq & _). discriminate Heq.
Qed.

(** C8, amended. An error that reaches the caller because the exchange
    failed, whatever ended it, is an [Error] made by the executor and its
    message starts with the fixed prefix. The one other error of a call is
    the [TypeError] of reading the field off a 200 answer whose body is
    [null] or [undefined]. *)
Theorem every_failure_is_prefixed_or_a_field_read (c : Call)
    (node : Sent → Settled (AxiosResponse JsValue)) (this : SigpairAdmin)
    (e : Thrown) :
  fst (snd (run node (invoke c this))) = Rejected e →
  (∃ msg,
     e = ThrownError (new_Error msg) ∧
     Str.startsWith msg "Failed to make request, error:" = true) ∨
  (∃ r, node (spec_request c this) = Fulfilled r ∧ status r = 200%N ∧
        (data r = JsNull ∨ data r = JsUndefined) ∧
        ∃ msg, e = ThrownError (new_TypeError msg)).
Proof. apply invoke_rejected. Qed.

Lemma every_failure_is_prefixed_or_a_field_read_witness :
  let c := GenUserToken 10000 (number 3600) in
  let node := always (Rejected (ThrownAxiosError not_found)) in
  let e := ThrownError
             (new_Error "Failed to make request, error:Not Found, code: 404") in
  fst (snd (run node (invoke c main_client))) = Rejected e ∧
  ((∃ msg,
      e = ThrownError (new_Error msg) ∧
      Str.startsWith msg "Failed to make request, error:" = true) ∨
   (∃ r, node (spec_request c main_client) = Fulfilled r ∧ status r = 200%N ∧
         (data r = JsNull ∨ data r = JsUndefined) ∧
         ∃ msg, e = ThrownError (new_TypeError msg))).
Proof.
  split; [reflexivity|].
  apply (every_failure_is_prefixed_or_a_field_read
           (GenUserToken 10000 (number 3600))
           (always (Rejected (ThrownAxiosError not_found))) main_client).
  reflexivity.
Defined.

(** C9. When axios resolves with a 2xx status that is not 200, the call is
    rejected: the error thrown on the status check is caught by the [catch]
    of the same [try] and wrapped again, so the prefix occurs twice and the
    status code is still in the message. *)
Theorem other_2xx_is_wrapped_twice (c : Call)
    (node : Sent → Settled (AxiosResponse JsValue)) (this : SigpairAdmin)
    (r : AxiosResponse JsValue) :
  node (spec_request c this) = Fulfilled r →
  (200 ≤ status r < 300)%N →
  status r ≠ 200%N →
  let inner :=
    new_Error ("Failed to make request, error:" +:+ statusText r +:+
               ", code: " +:+ Str.ofN (status r)) in
  let outer :=
    new_Error ("Failed to make request, error:" +:+ Error_toString inner) in
  fst (snd (run node (invoke c this))) = Rejected (ThrownError outer) ∧
  message outer =
    "Failed to make request, error:" +:+ "Error: " +:+
    "Failed to make request, error:" +:+ statusText r +:+
    ", code: " +:+ Str.ofN (status r) ∧
  Str.includes (message outer) (Str.ofN (status r)) = true.
Proof.
  intros Hnode _ Hs inner outer.
  split; [by apply invoke_not_200|]. split; [reflexivity|].
  unfold outer, inner, new_Error, Error_toString. cbn [message name].
  change (Str.includes
            ("Failed to make request, error:" +:+ "Error: " +:+
             "Failed to make request, error:" +:+ statusText r +:+
             ", code: " +:+ Str.ofN (status r))
            (Str.ofN (status r)) = true).
  find_part.
Qed.

Lemma other_2xx_is_wrapped_twice_witness :
  let c := CreateUser "John Doe" in
  let node := always (created (user_body 10000)) in
  fst (snd (run node (invoke c main_client))) =
    Rejected (ThrownError (new_Error
      "Failed to make request, error:Error: Failed to make request, error:Created, code: 201")) ∧
  Str.includes
    "Failed to make request, error:Error: Failed to make request, error:Created, code: 201"
    "201" = true.
Proof.
  destruct (other_2xx_is_wrapped_twice (CreateUser "John Doe")
              (always (created (user_body 10000))) main_client
              {| status := 201; statusText := "Created";
                 data := user_body 10000 |})
    as (Hrun & _ & Hcode); [reflexivity|done|done|].
  split; [exact Hrun|exact Hcode].
Defined.

(** * Further properties of the code *)

(** ** More on strings *)

Lemma append_assoc (a b c : string) : (a +:+ b) +:+ c = a +:+ b +:+ c.
Proof.
  induction a as [|x a IH]; [done|].
  by rewrite !append_cons, IH.
Qed.

Lemma length_append (a b : string) :
  String.length (a +:+ b) = (String.length a + String.length b)%nat.
Proof.
  induction a as [|x a IH]; [done|].
  rewrite append_cons. cbn [String.length]. by rewrite IH.
Qed.

(** A string is not itself with something put in front. *)
Lemma append_neq_self (a s : string) : a ≠ "" → a +:+ s ≠ s.
Proof.
  intros Ha Heq. apply (f_equal String.length) in Heq.
  rewrite length_append in Heq. destruct a; [done|].
  cbn [String.length] in Heq. lia.
Qed.

(** Cancelling a common end. *)
Lemma append_inj_l (s a b : string) : a +:+ s = b +:+ s → a = b.
Proof.
  revert b. induction a as [|x a IH]; intros [|y b] Heq.
  - done.
  - symmetry in Heq. by apply append_neq_self in Heq.
  - by apply append_neq_self in Heq.
  - rewrite !append_cons in Heq. injection Heq as -> Heq.
    by rewrite (IH b Heq).
Qed.

(** Cancelling a common start. *)
Lemma append_inj_r (s a b : string) : s +:+ a = s +:+ b → a = b.
Proof.
  induction s as [|x s IH]; [done|].
  rewrite !append_cons. intros Heq. injection Heq as Heq. by apply IH.
Qed.

(** ** The executor on its own *)

Section ExecutorAlone.

Context {P R : Type} `{JsonBody P}.
Variables (url : string) (headers : gmap string string) (payload : P).
Variable node : Sent → Settled (AxiosResponse R).

(** X1. [handleRequest] returns a body in one case only: axios resolved and
    the status is exactly 200; the body returned is then the decoded one.
    Every rejection of axios, and every other status, ends in a failure. *)
Theorem handleRequest_fulfilled_iff (d : R) :
  snd (run node (handleRequest url headers payload)) = Fulfilled d ↔
  ∃ r, node (wire url payload headers) = Fulfilled r ∧
       status r = 200%N ∧ data r = d.
Proof.
  split.
  - intros Hd.
    destruct (node (wire url payload headers)) as [r|[e|e]] eqn:Hnode.
    + destruct (decide (status r = 200%N)) as [Hs|Hs].
      * rewrite (handleRequest_200 _ _ _ _ r Hnode Hs) in Hd.
        injection Hd as <-. by exists r.
      * by rewrite (handleRequest_not_200 _ _ _ _ r Hnode Hs) in Hd.
    + by rewrite (handleRequest_AxiosError _ _ _ _ e Hnode) in Hd.
    + by rewrite (handleRequest_other_error _ _ _ _ e Hnode) in Hd.
  - intros (r & Hnode & Hs & <-). by apply handleRequest_200.
Qed.

End ExecutorAlone.

Lemma handleRequest_fulfilled_iff_witness :
  let node := always (ok {| user_id := 7 |}) in
  let p := handleRequest "http://localhost:8080/v1/create-user" ∅
             {| cu_name := "John Doe" |} in
  snd (run node p) = Fulfilled {| user_id := 7 |} ∧
  ∃ r, node (wire "http://localhost:8080/v1/create-user"
               {| cu_name := "John Doe" |} ∅) = Fulfilled r ∧
       status r = 200%N ∧ data r = {| user_id := 7 |}.
Proof.
  split; [reflexivity|].
  apply (handleRequest_fulfilled_iff
           "http://localhost:8080/v1/create-user" ∅ {| cu_name := "John Doe" |}
           (always (ok {| user_id := 7 |})) {| user_id := 7 |}).
  reflexivity.
Defined.

(** X2. What [handleRequest] settles to is decided by how the exchange
    ended and by nothing else: neither the address, nor the headers with the
    credential, nor the payload reach the result or the error message. *)
Theorem handleRequest_result_from_outcome_only {P P' R : Type}
    `{JsonBody P} `{JsonBody P'}
    (url url' : string) (headers headers' : gmap string string)
    (payload : P) (payload' : P')
    (node node' : Sent → Settled (AxiosResponse R)) :
  node (wire url payload headers) = node' (wire url' payload' headers') →
  snd (run node (handleRequest url headers payload)) =
  snd (run node' (handleRequest url' headers' payload')).
Proof.
  intros Hsame.
  destruct (node' (wire url' payload' headers')) as [r|[e|e]] eqn:Hnode'.
  - destruct (decide (status r = 200%N)) as [Hs|Hs].
    + by rewrite (handleRequest_200 _ _ _ node r Hsame Hs),
        (handleRequest_200 _ _ _ node' r Hnode' Hs).
    + by rewrite (handleRequest_not_200 _ _ _ node r Hsame Hs),
        (handleRequest_not_200 _ _ _ node' r Hnode' Hs).
  - by rewrite (handleRequest_AxiosError _ _ _ node e Hsame),
      (handleRequest_AxiosError _ _ _ node' e Hnode').
  - by rewrite (handleRequest_other_error _ _ _ node e Hsame),
      (handleRequest_other_error _ _ _ node' e Hnode').
Qed.

Lemma handleRequest_result_from_outcome_only_witness :
  let node := always (Rejected (ThrownAxiosError not_found)) in
  snd (run node
         (handleRequest "http://a/v1/create-user"
            (spec_headers "secret") {| cu_name := "Ann" |})) =
  snd (run node
         (handleRequest "http://b/v1/user-token" ∅
            {| gt_user_id := 1; gt_lifetime := 60 |}))
    :> Settled CreateUserResponse.
Proof.
  apply (handleRequest_result_from_outcome_only
           "http://a/v1/create-user" "http://b/v1/user-token"
           (spec_headers "secret") ∅
           {| cu_name := "Ann" |} {| gt_user_id := 1; gt_lifetime := 60 |}
           (always (Rejected (ThrownAxiosError not_found)))
           (always (Rejected (ThrownAxiosError not_found)))).
  reflexivity.
Defined.

(** X3. Failures that leave no response cannot be told apart: whatever the
    two axios errors say, a call that meets one settles exactly as a call
    that meets the other. *)
Theorem failures_without_response_look_alike (c : Call)
    (node node' : Sent → Settled (AxiosResponse JsValue)) (this : SigpairAdmin)
    (e e' : AxiosError) :
  node (spec_request c this) = Rejected (ThrownAxiosError e) →
  node' (spec_request c this) = Rejected (ThrownAxiosError e') →
  response e = None → response e' = None →
  run node (invoke c this) = run node' (invoke c this).
Proof.
  intros Hn Hn' He He'.
  rewrite (surjective_pairing (run node (invoke c this))).
  rewrite (surjective_pairing (snd (run node (invoke c this)))).
  rewrite (surjective_pairing (run node' (invoke c this))).
  rewrite (surjective_pairing (snd (run node' (invoke c this)))).
  rewrite !invoke_sent, !invoke_this.
  by rewrite (no_response_message c node this e Hn He),
    (no_response_message c node' this e' Hn' He').
Qed.

Lemma failures_without_response_look_alike_witness :
  run (always (Rejected (ThrownAxiosError connection_refused)))
      (invoke (CreateUser "John Doe") main_client) =
  run (always (Rejected (ThrownAxiosError timed_out)))
      (invoke (CreateUser "John Doe") main_client).
Proof.
  apply (failures_without_response_look_alike (CreateUser "John Doe")
           (always (Rejected (ThrownAxiosError connection_refused)))
           (always (Rejected (ThrownAxiosError timed_out)))
           main_client connection_refused timed_out);
    reflexivity.
Defined.

(** X4. One status line, two texts. When axios resolves with a status other
    than 200 the message is the one a rejection with the same status line
    gives, with the prefix and [Error: ] put in front of it; so the two
    messages always differ. *)
Theorem resolved_and_rejected_messages_differ (c : Call)
    (node node' : Sent → Settled (AxiosResponse JsValue)) (this : SigpairAdmin)
    (r : AxiosResponse JsValue) (e : AxiosError) :
  node (spec_request c this) = Fulfilled r →
  status r ≠ 200%N →
  node' (spec_request c this) = Rejected (ThrownAxiosError e) →
  response e =
    Some {| line_status := status r; line_statusText := statusText r |} →
  ∃ m,
    fst (snd (run node' (invoke c this))) =
      Rejected (ThrownError (new_Error m)) ∧
    fst (snd (run node (invoke c this))) =
      Rejected (ThrownError (new_Error (
        "Failed to make request, error:" +:+ "Error: " +:+ m))) ∧
    fst (snd (run node (invoke c this))) ≠
    fst (snd (run node' (invoke c this))).
Proof.
  intros Hn Hs Hn' He.
  rewrite (invoke_not_200 c node this r Hn Hs).
  rewrite (invoke_AxiosError c node' this e Hn'), He.
  cbn [fmap option_fmap option_map template_string template_status
       line_status line_statusText].
  set (m := "Failed to make request, error:" +:+ statusText r +:+
            ", code: " +:+ Str.ofN (status r)).
  exists m. split; [reflexivity|]. split; [reflexivity|].
  intros Heq.
  apply (f_equal (λ s, match s with
                       | Rejected (ThrownError err) => message err
                       | _ => ""
                       end)) in Heq.
  cbn [message new_Error] in Heq.
  apply (append_neq_self ("Failed to make request, error:" +:+ "Error: ") m);
    [done|].
  by rewrite append_assoc.
Qed.

Lemma resolved_and_rejected_messages_differ_witness :
  let c := CreateUser "John Doe" in
  let e := {| axios_name := "AxiosError";
              axios_message := "Request failed with status code 201";
              code := Some "ERR_BAD_RESPONSE";
              response := Some {| line_status := 201;
                                  line_statusText := "Created" |} |} in
  ∃ m,
    fst (snd (run (always (Rejected (ThrownAxiosError e)))
                (invoke c main_client))) =
      Rejected (ThrownError (new_Error m)) ∧
    fst (snd (run (always (created (user_body 7)))
                (invoke c main_client))) =
      Rejected (ThrownError (new_Error (
        "Failed to make request, error:" +:+ "Error: " +:+ m))) ∧
    fst (snd (run (always (created (user_body 7)))
                (invoke c main_client))) ≠
    fst (snd (run (always (Rejected (ThrownAxiosError e)))
                (invoke c main_client))).
Proof.
  intros c e.
  apply (resolved_and_rejected_messages_differ c
           (always (created (user_body 7)))
           (always (Rejected (ThrownAxiosError e))) main_client
           {| status := 201; statusText := "Created"; data := user_body 7 |} e);
    [reflexivity|discriminate|reflexivity|reflexivity].
Defined.

(** ** Addresses and headers *)

(** X5. The base address is used as it is. One that ends with a slash gives
    an address with two slashes before the route, and an empty one gives the
    route with a slash in front. *)
Theorem base_address_is_not_normalised :
  ∀ (c : Call) (node : Sent → Settled (AxiosResponse JsValue))
    (base credential : string),
    sent_url <$> fst (run node (invoke c (constructor (base +:+ "/") credential))) =
      [base +:+ "//" +:+ route c] ∧
    sent_url <$> fst (run node (invoke c (constructor "" credential))) =
      ["/" +:+ route c].
Proof.
  intros c node base credential. rewrite !invoke_sent.
  split; destruct c; cbn [fmap list_fmap spec_request sent_url route baseUrl
                          constructor]; [| |done..];
    by rewrite append_assoc.
Qed.

(** X6. The header object of every request has the two keys and no other:
    the client sets no further header of its own. *)
Theorem requests_carry_two_headers_only :
  ∀ (c : Call) (node : Sent → Settled (AxiosResponse JsValue))
    (this : SigpairAdmin),
    Forall (λ req,
              dom (sent_headers req) = {[ "Authorization"; "Content-Type" ]} ∧
              size (sent_headers req) = 2%nat ∧
              ∀ h, h ≠ "Authorization" → h ≠ "Content-Type" →
                   sent_headers req !! h = None)
           (fst (run node (invoke c this))).
Proof.
  intros c node this. rewrite invoke_sent.
  apply Forall_cons. split; [|by apply Forall_nil].
  rewrite spec_request_headers. unfold spec_headers. split; [|split].
  - by rewrite dom_insert_L, dom_singleton_L.
  - rewrite map_size_insert_None; [by rewrite map_size_singleton|].
    by apply lookup_singleton_ne.
  - intros h Ha Hc. rewrite lookup_insert_ne by done.
    by apply lookup_singleton_ne.
Qed.

(** ** What a request tells about the call *)

Lemma singleton_inj {T} (a b : T) : [a] = [b] → a = b.
Proof. by intros [=]. Qed.

Lemma Some_append_inj (s a b : string) : Some (s +:+ a) = Some (s +:+ b) → a = b.
Proof. intros [=Heq]. by apply append_inj_r in Heq. Qed.

(** Requests that are equal have equal parts. *)
Lemma sent_inj (req req' : Sent) :
  req = req' →
  sent_url req = sent_url req' ∧
  sent_headers req !! "Authorization" = sent_headers req' !! "Authorization" ∧
  sent_body req = sent_body req'.
Proof. by intros ->. Qed.

Lemma createUser_sent node this name :
  fst (run node (createUser name this)) =
    [spec_request (CreateUser name) this].
Proof. apply (invoke_sent (CreateUser name)). Qed.

(** X7. The request of [createUser] keeps all of its inputs: two calls that
    send the same request were made on objects with the same fields and
    with the same name. *)
Theorem createUser_request_determines_inputs
    (node node' : Sent → Settled (AxiosResponse JsValue))
    (this this' : SigpairAdmin) (name name' : string) :
  fst (run node (createUser name this)) =
  fst (run node' (createUser name' this')) →
  this = this' ∧ name = name'.
Proof.
  rewrite !createUser_sent. intros Heq.
  apply singleton_inj, sent_inj in Heq as (Hurl & Hheaders & Hname).
  cbn [spec_request sent_url sent_headers sent_body] in *.
  apply append_inj_l in Hurl.
  rewrite !spec_headers_authorization in Hheaders.
  apply Some_append_inj in Hheaders.
  assert (name = name') as -> by congruence.
  destruct this, this'. cbn [baseUrl adminToken] in *. by subst.
Qed.

Lemma createUser_request_determines_inputs_witness :
  let node := always (ok (user_body 7)) in
  let node' := always (Rejected (ThrownAxiosError not_found)) in
  fst (run node (createUser "John Doe" main_client)) =
  fst (run node' (createUser "John Doe" main_client)) ∧
  main_client = main_client ∧ "John Doe" = "John Doe".
Proof.
  split; [reflexivity|].
  apply (createUser_request_determines_inputs
           (always (ok (user_body 7)))
           (always (Rejected (ThrownAxiosError not_found)))
           main_client main_client "John Doe" "John Doe").
  reflexivity.
Defined.

(** X8. The request of [genUserToken] keeps the object and the user id, and
    of the lifetime it keeps the value after the default: calls that send
    the same request differ at most in how they spelled 3600. *)
Theorem genUserToken_request_determines_inputs
    (node node' : Sent → Settled (AxiosResponse JsValue))
    (this this' : SigpairAdmin) (userId userId' : Z)
    (lifetime lifetime' : OptionalNumber) :
  fst (run node (genUserToken userId lifetime this)) =
  fst (run node' (genUserToken userId' lifetime' this')) →
  this = this' ∧ userId = userId' ∧ lifetime ?? 3600 = lifetime' ?? 3600.
Proof.
  rewrite !genUserToken_sent. intros Heq.
  apply singleton_inj, sent_inj in Heq as (Hurl & Hheaders & Hbody).
  cbn [spec_request sent_url sent_headers sent_body] in *.
  apply append_inj_l in Hurl.
  rewrite !spec_headers_authorization in Hheaders.
  apply Some_append_inj in Hheaders.
  assert (userId = userId') as -> by congruence.
  split; [|split; [done|]].
  - destruct this, this'. cbn [baseUrl adminToken] in *. by subst.
  - destruct lifetime, lifetime'; cbn [nullish_coalescing] in *; congruence.
Qed.

Lemma genUserToken_request_determines_inputs_witness :
  let node := always (ok (token_body "abc")) in
  fst (run node (genUserToken 10000 undefined main_client)) =
  fst (run node (genUserToken 10000 (number 3600) main_client)) ∧
  main_client = main_client ∧ 10000 = 10000 ∧
  undefined ?? 3600 = number 3600 ?? 3600.
Proof.
  split; [reflexivity|].
  apply (genUserToken_request_determines_inputs
           (always (ok (token_body "abc")))
           (always (ok (token_body "abc")))
           main_client main_client 10000 10000 undefined (number 3600)).
  reflexivity.
Defined.

(** ** Calls in a row *)

(** X9. A sequence of calls on one object sends one request per call, in
    the order of the calls, and each request is the one its call sends on
    the object as constructed: no answer of the node, failure or not,
    changes what is sent afterwards, and nothing is sent twice. *)
Theorem session_requests :
  ∀ (calls : list Exchange) (this : SigpairAdmin),
    fst (session calls this) = exchange_request this <$> calls ∧
    length (fst (session calls this)) = length calls.
Proof.
  intros calls this.
  assert (fst (session calls this) = exchange_request this <$> calls) as Hsent.
  { induction calls as [|[c node] calls IH]; [done|].
    cbn [session].
    pose proof (invoke_sent c node this) as Hsent.
    pose proof (invoke_this c node this) as Hthis.
    destruct (run node (invoke c this)) as [sent [r this']].
    cbn [fst snd] in Hsent, Hthis. subst sent this'.
    destruct (session calls this) as [sent' this''].
    cbn [fst snd] in *. by rewrite IH. }
  split; [done|]. by rewrite Hsent, length_fmap.
Qed.

(** ** main *)

Section Main.

Variable node : Node.
Variable w : World.

Let req1 : Sent := spec_request (CreateUser "John Doe") main_client.
Let req2 : Sent := spec_request (GenUserToken 10000 (number 3600)) main_client.

Lemma await_run (endpoint : Node → Sent → Settled (AxiosResponse JsValue))
    (c : Call) (this : SigpairAdmin) :
  Script.await endpoint (invoke c this) node w =
    let w' := {| requests := requests w ++ [spec_request c this];
                 console := console w |} in
    match fst (snd (run (endpoint node) (invoke c this))) with
    | Fulfilled a => (Fulfilled (a, this), w')
    | Rejected e => (Rejected e, w')
    end.
Proof.
  unfold Script.await.
  pose proof (invoke_sent c (endpoint node) this) as Hsent.
  pose proof (invoke_this c (endpoint node) this) as Hthis.
  destruct (run (endpoint node) (invoke c this)) as [sent [r this']].
  cbn [fst snd] in *. by subst.
Qed.

(** [main], path by path. *)
Lemma main_paths :
  main node w =
    match fst (snd (run (create_user node)
                      (invoke (CreateUser "John Doe") main_client))) with
    | Rejected e =>
        (Rejected e,
         {| requests := requests w ++ [req1]; console := console w |})
    | Fulfilled userId =>
        match fst (snd (run (user_token node)
                          (invoke (GenUserToken 10000 (number 3600))
                             main_client))) with
        | Rejected e =>
            (Rejected e,
             {| requests := requests w ++ [req1; req2];
                console := console w |})
        | Fulfilled token =>
            (Fulfilled tt,
             {| requests := requests w ++ [req1; req2];
                console := console w ++ [userId; token] |})
        end
    end.
Proof.
  unfold main, mbind, Script_bind, Script.bind.
  change (constructor _ _) with main_client.
  change (createUser "John Doe" main_client)
    with (invoke (CreateUser "John Doe") main_client).
  rewrite await_run. cbn zeta. fold req1.
  destruct (fst (snd (run (create_user node) _))) as [userId|e]; [|done].
  change (genUserToken 10000 (number 3600) main_client)
    with (invoke (GenUserToken 10000 (number 3600)) main_client).
  unfold Script.await.
  pose proof (invoke_sent (GenUserToken 10000 (number 3600))
                (user_token node) main_client) as Hsent.
  pose proof (invoke_this (GenUserToken 10000 (number 3600))
                (user_token node) main_client) as Hthis.
  destruct (run (user_token node) _) as [sent [r this']].
  cbn [fst snd requests console] in *. subst sent this'. fold req2.
  destruct r as [token|e]; unfold Script.console_log;
    cbn [requests console]; by rewrite <- !app_assoc.
Qed.

End Main.

(** X10. When both posts are answered with 200 and the two fields can be
    read, [main] sends the two requests in order and logs what reading
    [user_id] off the first body gave and then what reading [token] off the
    second gave. The token is asked for user 10000 whatever id the node gave
    to the user it created. *)
Theorem main_logs_id_then_token (node : Node) (w : World)
    (r1 r2 : AxiosResponse JsValue) (userId token : JsValue) :
  let req1 := spec_request (CreateUser "John Doe") main_client in
  let req2 := spec_request (GenUserToken 10000 (number 3600)) main_client in
  create_user node req1 = Fulfilled r1 → status r1 = 200%N →
  get_property (data r1) "user_id" = Fulfilled userId →
  user_token node req2 = Fulfilled r2 → status r2 = 200%N →
  get_property (data r2) "token" = Fulfilled token →
  main node w =
    (Fulfilled tt,
     {| requests := requests w ++ [req1; req2];
        console := console w ++ [userId; token] |}).
Proof.
  intros req1 req2 H1 Hs1 Hv1 H2 Hs2 Hv2. rewrite main_paths.
  rewrite (invoke_200 (CreateUser "John Doe") _ _ r1 H1 Hs1).
  cbn [field]. rewrite Hv1.
  rewrite (invoke_200 (GenUserToken 10000 (number 3600)) _ _ r2 H2 Hs2).
  cbn [field]. by rewrite Hv2.
Qed.

Lemma main_logs_id_then_token_witness :
  main sample_node empty_world =
    (Fulfilled tt,
     {| requests := [spec_request (CreateUser "John Doe") main_client;
                     spec_request (GenUserToken 10000 (number 3600)) main_client];
        console := [JsNumber 7; JsString "abc"] |}).
Proof.
  apply (main_logs_id_then_token sample_node empty_world
           {| status := 200; statusText := "OK"; data := user_body 7 |}
           {| status := 200; statusText := "OK"; data := token_body "abc" |}
           (JsNumber 7) (JsString "abc"));
    reflexivity.
Defined.

(** X11. When [createUser] is rejected, [main] is rejected with the same
    error after that one request: no token is asked for, nothing is
    logged. *)
Theorem main_stops_when_createUser_fails (node : Node) (w : World) (e : Thrown) :
  fst (snd (run (create_user node) (createUser "John Doe" main_client))) =
    Rejected e →
  main node w =
    (Rejected e,
     {| requests := requests w ++ [spec_request (CreateUser "John Doe") main_client];
        console := console w |}).
Proof.
  intros He. rewrite main_paths.
  change (invoke (CreateUser "John Doe") main_client)
    with (createUser "John Doe" main_client).
  by rewrite He.
Qed.

Lemma main_stops_when_createUser_fails_witness :
  let node := {| create_user := always (created (user_body 7));
                 user_token := always (ok (token_body "abc")) |} in
  main node empty_world =
    (Rejected (ThrownError (new_Error
       "Failed to make request, error:Error: Failed to make request, error:Created, code: 201")),
     {| requests := [spec_request (CreateUser "John Doe") main_client];
        console := [] |}).
Proof.
  intros node.
  apply (main_stops_when_createUser_fails node empty_world).
  reflexivity.
Defined.


